(** * Bot provisioning on Azure: the operation wrappers and the deploy-status poller

    A shallow embedding of [packages/fx-core/src/plugins/resource/bot/azureOps.ts]
    (class [AzureOperations]).  Every remote call is awaited before the next
    statement runs, so an awaited promise is modelled by its settlement: either a
    value or a thrown reason.  The management clients are records of methods; the
    shared axios instance is an oracle indexed by the number of requests already
    issued on it, and the requests and the sleeps performed are recorded in an
    explicit world that is threaded through the code. *)

From Stdlib Require Import ZArith List String Bool Lia.
Import ListNotations.

Set Implicit Arguments.

(** ** Settled promises *)

(** What [await p] evaluates to: the fulfilment value, or the thrown reason. *)
Inductive Settled (E A : Type) : Type :=
| Fulfilled (value : A)
| Rejected (reason : E).

Arguments Fulfilled {E A} value.
Arguments Rejected {E A} reason.

(** ** Errors raised by the operations ([./errors])

    One constructor per error class that [azureOps.ts] instantiates; the
    optional last constructor argument of each class is the inner error.
    [Thrown] is the type of whatever value a collaborator throws: the operations
    attach it and never look inside. *)
Inductive ProvisioningError (Thrown : Type) : Type :=
| MessageEndpointUpdatingError (endpoint : string) (innerError : option Thrown)
| ProvisionError (resource : string) (innerError : option Thrown)
| ConfigUpdatingError (configName : string) (innerError : option Thrown)
| ListPublishingCredentialsError (innerError : option Thrown)
| ZipDeployError (innerError : option Thrown)
| RestartWebAppError (innerError : option Thrown)
| DeployStatusError (innerError : option Thrown)
| DeployTimeoutError.

Arguments MessageEndpointUpdatingError {Thrown} endpoint innerError.
Arguments ProvisionError {Thrown} resource innerError.
Arguments ConfigUpdatingError {Thrown} configName innerError.
Arguments ListPublishingCredentialsError {Thrown} innerError.
Arguments ZipDeployError {Thrown} innerError.
Arguments RestartWebAppError {Thrown} innerError.
Arguments DeployStatusError {Thrown} innerError.
Arguments DeployTimeoutError {Thrown}.

(** ** Status-code helpers ([./utils/common]) *)

Module utils.

(** Modelled from the spec: [utils.isHttpCodeOkOrCreated] lives in
    [./utils/common], which is not part of the sources at hand.  The spec's
    class [OkOrCreated] is the terminal-success class, distinct from [Accepted]
    (202); by the helper's name it holds the codes 200 (OK) and 201 (Created). *)
Definition isHttpCodeOkOrCreated (code : Z) : bool :=
  (code =? 200)%Z || (code =? 201)%Z.

(** Modelled from the spec: [utils.isHttpCodeAccepted] lives in
    [./utils/common], which is not part of the sources at hand.  The spec's
    class [Accepted] is the single code 202. *)
Definition isHttpCodeAccepted (code : Z) : bool :=
  (code =? 202)%Z.

End utils.

(** Modelled from the spec: the three-way classification [HttpStatusClass] of
    the spec's data model.  The source has no such type: it branches on the two
    helpers, [isHttpCodeAccepted] first and [isHttpCodeOkOrCreated] second
    (lines 166-172), and [classify] follows that order. *)
Inductive HttpStatusClass : Type :=
| OkOrCreated
| Accepted
| Other.

Definition classify (code : Z) : HttpStatusClass :=
  if utils.isHttpCodeAccepted code then Accepted
  else if utils.isHttpCodeOkOrCreated code then OkOrCreated
  else Other.

(** ** The collaborators *)

Module Arm.

(** The raw HTTP response that the management SDK attaches to each result. *)
Record HttpResponse : Type := { status : Z }.

(** An SDK result: the resource model together with [_response]. *)
Record Response (Model : Type) : Type :=
  { model : Model;
    _response : HttpResponse }.

End Arm.

Record BotProperties : Type :=
  { displayName : string;
    endpoint : string;
    msaAppId : string }.

Record BotUpdateParameters : Type :=
  { properties : BotProperties }.

Record BotChannelParameters : Type :=
  { location : string;
    kind : string;
    channelName : string;
    isEnabled : bool }.

(** [AzureBotService]: the two methods used, [bots.update] and
    [channels.create].  A method settles to a possibly-undefined result (the
    code tests [!response]) or throws. *)
Record AzureBotService (Thrown Bot BotChannel : Type) : Type :=
  { bots_update :
      string -> string -> BotUpdateParameters ->
      Settled Thrown (option (Arm.Response Bot));
    channels_create :
      string -> string -> string -> BotChannelParameters ->
      Settled Thrown (option (Arm.Response BotChannel)) }.

(** [appService.WebSiteManagementClient]: the three [webApps] methods used. *)
Record WebSiteManagementClient (Thrown Site User : Type) : Type :=
  { webApps_createOrUpdate :
      string -> string -> Site -> Settled Thrown (option (Arm.Response Site));
    webApps_listPublishingCredentials :
      string -> string -> Settled Thrown (option (Arm.Response User));
    webApps_restart :
      string -> string -> Settled Thrown (option (Arm.Response unit)) }.

Module Axios.

Record Headers : Type := { location : string }.

Record Response : Type :=
  { status : Z;
    headers : Headers }.

(** An axios instance.  The first argument of each method is the number of
    requests issued on the instance so far, so that successive calls with the
    same arguments may settle differently. *)
Record Instance (Thrown Config : Type) : Type :=
  { post :
      nat -> string -> list Byte.byte -> Config ->
      Settled Thrown (option Response);
    get :
      nat -> string -> Config -> Settled Thrown (option Response) }.

End Axios.

(** ** The world and the monad of awaited code *)

(** What the code has done to the outside: how many requests it has issued on
    the shared axios instance, and the sleeps it has performed, oldest first. *)
Record World : Type :=
  { requests : nat;
    slept : list Z }.

Definition Async (E A : Type) : Type := World -> Settled E A * World.

Definition ret {E A : Type} (a : A) : Async E A :=
  fun w => (Fulfilled a, w).

Definition throw {E A : Type} (e : E) : Async E A :=
  fun w => (Rejected e, w).

Definition bind {E A B : Type} (c : Async E A) (k : A -> Async E B) : Async E B :=
  fun w =>
    match c w with
    | (Fulfilled a, w') => k a w'
    | (Rejected e, w') => (Rejected e, w')
    end.

(** [try { c } catch (e) { handler e }] *)
Definition try_catch {E E' A : Type} (c : Async E A) (handler : E -> Async E' A)
  : Async E' A :=
  fun w =>
    match c w with
    | (Fulfilled a, w') => (Fulfilled a, w')
    | (Rejected e, w') => handler e w'
    end.

Declare Scope async_scope.
Delimit Scope async_scope with async.
Notation "x <- c ;; k" := (bind c (fun x => k))
  (at level 61, c at next level, right associativity) : async_scope.
Notation "c ;;; k" := (bind c (fun _ => k))
  (at level 61, right associativity) : async_scope.

(** How a loop body, or a whole loop, ends when it does not throw: by falling
    through, or by a [return] that leaves the enclosing function. *)
Inductive Completion (A : Type) : Type :=
| Normal
| Return (value : A).

Arguments Normal {A}.
Arguments Return {A} value.

(** Modelled from the spec: [waitSeconds] is imported from [../../../common],
    which is not part of the sources at hand.  It is the spec's sleep primitive:
    it suspends the flow for the given number of seconds and does nothing else. *)
Definition waitSeconds {E : Type} (second : Z) : Async E unit :=
  fun w => (Fulfilled tt, {| requests := requests w; slept := slept w ++ [second] |}).

(** ** The operations of [AzureOperations] *)

Section AzureOperations.

Local Open Scope async_scope.

(** Types that the code passes through without inspecting. *)
Variables Thrown Bot BotChannel Site User Config : Type.

(** [CommonStrings] and [ConfigNames] of [./resources/strings]. *)
Variable MS_TEAMS_CHANNEL : string.
Variable AZURE_WEB_APP : string.
Variable AZURE_WEB_APP_AUTH_CONFIGS : string.

(** [DeployStatus] of [./constants]: the number of poll attempts and the
    seconds slept after a pending poll. *)
Variable RETRY_TIMES : nat.
Variable BACKOFF_TIME_S : Z.

(** [private static readonly axiosInstance = axios.create()] *)
Variable axiosInstance : Axios.Instance Thrown Config.

Local Abbreviation Error := (ProvisioningError Thrown).

Definition UpdateBotChannelRegistration
    (botClient : AzureBotService Thrown Bot BotChannel)
    (resourceGroup botChannelRegistrationName msaAppId endpoint : string)
    (displayName : option string) : Settled Error unit :=
  match
    bots_update botClient resourceGroup botChannelRegistrationName
      {| properties :=
           {| displayName :=
                match displayName with
                | Some d => d
                | None => botChannelRegistrationName
                end;
              endpoint := endpoint;
              msaAppId := msaAppId |} |}
  with
  | Rejected e => Rejected (MessageEndpointUpdatingError endpoint (Some e))
  | Fulfilled botResponse =>
      match botResponse with
      | None => Rejected (MessageEndpointUpdatingError endpoint None)
      | Some r =>
          if negb (utils.isHttpCodeOkOrCreated (Arm.status (Arm._response r)))
          then Rejected (MessageEndpointUpdatingError endpoint None)
          else Fulfilled tt
      end
  end.

Definition LinkTeamsChannel
    (botClient : AzureBotService Thrown Bot BotChannel)
    (resourceGroup botChannelRegistrationName : string) : Settled Error unit :=
  match
    channels_create botClient resourceGroup botChannelRegistrationName
      "MsTeamsChannel"
      {| location := "global";
         kind := "bot";
         channelName := "MsTeamsChannel";
         isEnabled := true |}
  with
  | Rejected e => Rejected (ProvisionError MS_TEAMS_CHANNEL (Some e))
  | Fulfilled channelResponse =>
      match channelResponse with
      | None => Rejected (ProvisionError MS_TEAMS_CHANNEL None)
      | Some r =>
          if negb (utils.isHttpCodeOkOrCreated (Arm.status (Arm._response r)))
          then Rejected (ProvisionError MS_TEAMS_CHANNEL None)
          else Fulfilled tt
      end
  end.

(** [update?: boolean] is an optional parameter; [!update] holds when it is
    [false] and when it is left out. *)
Definition CreateOrUpdateAzureWebApp
    (webSiteMgmtClient : WebSiteManagementClient Thrown Site User)
    (resourceGroup siteName : string) (siteEnvelope : Site)
    (update : option bool) : Settled Error (Arm.Response Site) :=
  let not_update :=
    negb match update with Some b => b | None => false end in
  match webApps_createOrUpdate webSiteMgmtClient resourceGroup siteName siteEnvelope with
  | Rejected e =>
      if not_update
      then Rejected (ProvisionError AZURE_WEB_APP (Some e))
      else Rejected (ConfigUpdatingError AZURE_WEB_APP_AUTH_CONFIGS (Some e))
  | Fulfilled webappResponse =>
      match webappResponse with
      | None =>
          if not_update
          then Rejected (ProvisionError AZURE_WEB_APP None)
          else Rejected (ConfigUpdatingError AZURE_WEB_APP_AUTH_CONFIGS None)
      | Some r =>
          if negb (utils.isHttpCodeOkOrCreated (Arm.status (Arm._response r)))
          then
            if not_update
            then Rejected (ProvisionError AZURE_WEB_APP None)
            else Rejected (ConfigUpdatingError AZURE_WEB_APP_AUTH_CONFIGS None)
          else Fulfilled r
      end
  end.

Definition ListPublishingCredentials
    (webSiteMgmtClient : WebSiteManagementClient Thrown Site User)
    (resourceGroup siteName : string) : Settled Error (Arm.Response User) :=
  match webApps_listPublishingCredentials webSiteMgmtClient resourceGroup siteName with
  | Rejected e => Rejected (ListPublishingCredentialsError (Some e))
  | Fulfilled listResponse =>
      match listResponse with
      | None => Rejected (ListPublishingCredentialsError None)
      | Some r =>
          if negb (utils.isHttpCodeOkOrCreated (Arm.status (Arm._response r)))
          then Rejected (ListPublishingCredentialsError None)
          else Fulfilled r
      end
  end.

Definition RestartWebApp
    (webSiteMgmtClient : WebSiteManagementClient Thrown Site User)
    (resourceGroup siteName : string) : Settled Error unit :=
  match webApps_restart webSiteMgmtClient resourceGroup siteName with
  | Rejected e => Rejected (RestartWebAppError (Some e))
  | Fulfilled res =>
      match res with
      | None => Rejected (RestartWebAppError None)
      | Some r =>
          if negb (utils.isHttpCodeOkOrCreated (Arm.status (Arm._response r)))
          then Rejected (RestartWebAppError None)
          else Fulfilled tt
      end
  end.

(** [await AzureOperations.axiosInstance.post(url, data, config)] *)
Definition axios_post (url : string) (data : list Byte.byte) (config : Config)
  : Async Thrown (option Axios.Response) :=
  fun w =>
    (Axios.post axiosInstance (requests w) url data config,
     {| requests := S (requests w); slept := slept w |}).

(** [await AzureOperations.axiosInstance.get(url, config)] *)
Definition axios_get (url : string) (config : Config)
  : Async Thrown (option Axios.Response) :=
  fun w =>
    (Axios.get axiosInstance (requests w) url config,
     {| requests := S (requests w); slept := slept w |}).

Definition ZipDeployPackage
    (zipDeployEndpoint : string) (zipBuffer : list Byte.byte) (config : Config)
  : Async Error string :=
  res <- try_catch (axios_post zipDeployEndpoint zipBuffer config)
           (fun e => throw (ZipDeployError (Some e))) ;;
  match res with
  | None => throw (ZipDeployError None)
  | Some r =>
      if negb (utils.isHttpCodeAccepted (Axios.status r))
      then throw (ZipDeployError None)
      else ret (Axios.location (Axios.headers r))
  end.

(** One pass through the body of the [for] loop of [CheckDeployStatus].  The
    variable [res] is assigned by the [get] before it is read, so nothing is
    carried from one pass to the next. *)
Definition poll_once (location : string) (config : Config)
  : Async Error (Completion unit) :=
  res <- try_catch (axios_get location config)
           (fun e => throw (DeployStatusError (Some e))) ;;
  match res with
  | Some r =>
      if utils.isHttpCodeAccepted (Axios.status r)
      then waitSeconds BACKOFF_TIME_S ;;; ret Normal
      else if utils.isHttpCodeOkOrCreated (Axios.status r)
      then ret (Return tt)
      else throw (DeployStatusError None)
  | None => ret Normal
  end.

(** [for (let i = 0; i < DeployStatus.RETRY_TIMES; ++i) { ... }], by recursion
    on the number [RETRY_TIMES - i] of passes still allowed. *)
Fixpoint poll_loop (remaining : nat) (location : string) (config : Config)
  : Async Error (Completion unit) :=
  match remaining with
  | O => ret Normal
  | S remaining' =>
      c <- poll_once location config ;;
      match c with
      | Normal => poll_loop remaining' location config
      | Return v => ret (Return v)
      end
  end.

Definition CheckDeployStatus (location : string) (config : Config)
  : Async Error unit :=
  c <- poll_loop RETRY_TIMES location config ;;
  match c with
  | Return v => ret v
  | Normal => throw DeployTimeoutError
  end.

End AzureOperations.

(** ** Vocabulary of the statements *)

(** A settled response that the validation after the [try] block turns down:
    the response is undefined, or its status fails the test [accepting]. *)
Definition turned_down {R : Type} (accepting : Z -> bool) (status_of : R -> Z)
    (res : option R) : Prop :=
  forall r, res = Some r -> accepting (status_of r) = false.

Definition arm_status {Model : Type} (r : Arm.Response Model) : Z :=
  Arm.status (Arm._response r).

(** The error that the spec designates for [CreateOrUpdateAzureWebApp], by the
    [update] flag: [ConfigUpdating] when it is [true], [Provisioning] when it is
    [false]; a flag left out counts as [false]. *)
Definition site_error {Thrown : Type} (AZURE_WEB_APP AZURE_WEB_APP_AUTH_CONFIGS : string)
    (update : option bool) (cause : option Thrown) : ProvisioningError Thrown :=
  match update with
  | Some true => ConfigUpdatingError AZURE_WEB_APP_AUTH_CONFIGS cause
  | Some false | None => ProvisionError AZURE_WEB_APP cause
  end.

(** A poll that settled to a response with the pending status. *)
Definition accepted_poll {Thrown : Type} (o : Settled Thrown (option Axios.Response))
  : bool :=
  match o with
  | Fulfilled (Some r) => utils.isHttpCodeAccepted (Axios.status r)
  | _ => false
  end.

(** A poll that settled to no response object at all. *)
Definition undefined_poll {Thrown : Type} (o : Settled Thrown (option Axios.Response))
  : bool :=
  match o with
  | Fulfilled None => true
  | _ => false
  end.

(** The polls after which the loop goes round again. *)
Definition pending_poll {Thrown : Type} (o : Settled Thrown (option Axios.Response))
  : bool :=
  accepted_poll o || undefined_poll o.

(** How many of the [count] polls numbered from [first] are [accepted_poll]s. *)
Fixpoint accepted_polls {Thrown : Type}
    (answers : nat -> Settled Thrown (option Axios.Response)) (first count : nat) : nat :=
  match count with
  | O => 0
  | S count' =>
      (if accepted_poll (answers first) then 1 else 0)
      + accepted_polls answers (S first) count'
  end.

(** The seconds slept so far. *)
Definition total_slept (w : World) : Z := fold_right Z.add 0%Z (slept w).

(** The world after [polls] more requests and the sleeps [sleeps]. *)
Definition advance (w : World) (polls : nat) (sleeps : list Z) : World :=
  {| requests := requests w + polls; slept := slept w ++ sleeps |}.

(** *** Scripted collaborators, for concrete runs *)

Definition fresh_world : World := {| requests := 0; slept := [] |}.

Definition response (code : Z) : Axios.Response :=
  {| Axios.status := code;
     Axios.headers := {| Axios.location := "https://scm/deployments/latest"%string |} |}.

Definition http (code : Z) : Settled string (option Axios.Response) :=
  Fulfilled (Some (response code)).

(** An axios instance whose [post] settles as given and whose successive
    requests to [get] settle as listed. *)
Definition scripted_axios (posted : Settled string (option Axios.Response))
    (polled : list (Settled string (option Axios.Response)))
  : Axios.Instance string unit :=
  {| Axios.post := fun _ _ _ _ => posted;
     Axios.get := fun n _ _ => nth n polled (Rejected "connection closed"%string) |}.

Definition arm (A : Type) (a : A) (code : Z) : option (Arm.Response A) :=
  Some {| Arm.model := a; Arm._response := {| Arm.status := code |} |}.

Definition scripted_bot_client (settles : forall A : Type, A -> Settled string (option (Arm.Response A)))
  : AzureBotService string unit unit :=
  {| bots_update := fun _ _ _ => settles unit tt;
     channels_create := fun _ _ _ _ => settles unit tt |}.

Definition scripted_site_client (settles : forall A : Type, A -> Settled string (option (Arm.Response A)))
  : WebSiteManagementClient string string string :=
  {| webApps_createOrUpdate := fun _ _ site => settles string site;
     webApps_listPublishingCredentials := fun _ _ => settles string "user"%string;
     webApps_restart := fun _ _ => settles unit tt |}.

(** ** The status-code classes *)

Lemma isHttpCodeOkOrCreated_iff code :
  utils.isHttpCodeOkOrCreated code = true <-> (code = 200 \/ code = 201)%Z.
Proof. unfold utils.isHttpCodeOkOrCreated. rewrite orb_true_iff, !Z.eqb_eq. tauto. Qed.

Lemma isHttpCodeAccepted_iff code :
  utils.isHttpCodeAccepted code = true <-> code = 202%Z.
Proof. unfold utils.isHttpCodeAccepted. apply Z.eqb_eq. Qed.

Lemma ok_or_created_not_accepted code :
  utils.isHttpCodeOkOrCreated code = true -> utils.isHttpCodeAccepted code = false.
Proof.
  rewrite isHttpCodeOkOrCreated_iff. intros H.
  destruct (utils.isHttpCodeAccepted code) eqn:A; [|reflexivity].
  apply isHttpCodeAccepted_iff in A. lia.
Qed.

(** C9. The class of a status code is a function of the code alone, and the
    classes do not overlap: no code passes both [isHttpCodeOkOrCreated] and
    [isHttpCodeAccepted], and a code has the class [OkOrCreated], [Accepted] or
    [Other] exactly when it passes the first test, the second, or neither. *)
Theorem classification_is_a_partition (code : Z) :
  (exists! c, classify code = c) /\
  utils.isHttpCodeOkOrCreated code && utils.isHttpCodeAccepted code = false /\
  (classify code = OkOrCreated <-> utils.isHttpCodeOkOrCreated code = true) /\
  (classify code = Accepted <-> utils.isHttpCodeAccepted code = true) /\
  (classify code = Other <->
     utils.isHttpCodeOkOrCreated code = false /\ utils.isHttpCodeAccepted code = false).
Proof.
  split.
  { exists (classify code). split; [reflexivity | intros c H; exact H]. }
  unfold classify.
  destruct (utils.isHttpCodeOkOrCreated code) eqn:K.
  - rewrite (ok_or_created_not_accepted code K). cbn.
    repeat split; intros; try discriminate; try reflexivity.
    destruct H; discriminate.
  - destruct (utils.isHttpCodeAccepted code); cbn;
      repeat split; intros; try discriminate; try reflexivity.
    destruct H; discriminate.
Qed.

(** ** The operation wrappers *)

Section Wrappers.

Variables Thrown Bot BotChannel Site User Config : Type.
Variables MS_TEAMS_CHANNEL AZURE_WEB_APP AZURE_WEB_APP_AUTH_CONFIGS : string.
Variable axiosInstance : Axios.Instance Thrown Config.

Implicit Types (botClient : AzureBotService Thrown Bot BotChannel)
  (webSiteMgmtClient : WebSiteManagementClient Thrown Site User)
  (e : Thrown) (w : World).

Lemma turned_down_some {R : Type} (accepting : Z -> bool) (status_of : R -> Z) (r : R) :
  turned_down accepting status_of (Some r) -> accepting (status_of r) = false.
Proof. intros H. apply H. reflexivity. Qed.

(** What [ZipDeployPackage] does, by the settlement of its one [post]. *)
Lemma ZipDeployPackage_run zipDeployEndpoint zipBuffer (config : Config) w :
  ZipDeployPackage axiosInstance zipDeployEndpoint zipBuffer config w =
  (match Axios.post axiosInstance (requests w) zipDeployEndpoint zipBuffer config with
   | Rejected e => Rejected (ZipDeployError (Some e))
   | Fulfilled None => Rejected (ZipDeployError None)
   | Fulfilled (Some r) =>
       if utils.isHttpCodeAccepted (Axios.status r)
       then Fulfilled (Axios.location (Axios.headers r))
       else Rejected (ZipDeployError None)
   end,
   {| requests := S (requests w); slept := slept w |}).
Proof.
  unfold ZipDeployPackage, bind, try_catch, axios_post, throw, ret.
  destruct (Axios.post axiosInstance (requests w) zipDeployEndpoint zipBuffer config)
    as [[r|]|e]; try reflexivity.
  destruct (utils.isHttpCodeAccepted (Axios.status r)); reflexivity.
Qed.

(** The validation step of the five management-client operations. *)
Ltac validate H :=
  first
    [ apply turned_down_some in H; unfold arm_status in H; cbn; rewrite H
    | unfold arm_status in H; cbn; rewrite H ];
  cbn; try reflexivity.

(** C1. Each of the six operations turns a throwing collaborator call into its
    own error with the thrown value as inner error, and turns a call that
    settles to an undefined response, or to a response whose status fails the
    operation's test ([isHttpCodeOkOrCreated]; for the package push,
    [isHttpCodeAccepted]), into the same error without inner error. *)
Theorem failure_raises_designated_error :
  (forall botClient resourceGroup name msaAppId endpoint displayName,
     let call :=
       bots_update botClient resourceGroup name
         {| properties :=
              {| displayName := match displayName with Some d => d | None => name end;
                 endpoint := endpoint;
                 msaAppId := msaAppId |} |} in
     let run :=
       UpdateBotChannelRegistration botClient resourceGroup name msaAppId endpoint
         displayName in
     (forall e, call = Rejected e ->
        run = Rejected (MessageEndpointUpdatingError endpoint (Some e))) /\
     (forall res, call = Fulfilled res ->
        turned_down utils.isHttpCodeOkOrCreated arm_status res ->
        run = Rejected (MessageEndpointUpdatingError endpoint None))) /\
  (forall botClient resourceGroup name,
     let call :=
       channels_create botClient resourceGroup name "MsTeamsChannel"
         {| location := "global"; kind := "bot";
            channelName := "MsTeamsChannel"; isEnabled := true |} in
     let run := LinkTeamsChannel MS_TEAMS_CHANNEL botClient resourceGroup name in
     (forall e, call = Rejected e ->
        run = Rejected (ProvisionError MS_TEAMS_CHANNEL (Some e))) /\
     (forall res, call = Fulfilled res ->
        turned_down utils.isHttpCodeOkOrCreated arm_status res ->
        run = Rejected (ProvisionError MS_TEAMS_CHANNEL None))) /\
  (forall webSiteMgmtClient resourceGroup siteName siteEnvelope update,
     let call :=
       webApps_createOrUpdate webSiteMgmtClient resourceGroup siteName siteEnvelope in
     let run :=
       CreateOrUpdateAzureWebApp AZURE_WEB_APP AZURE_WEB_APP_AUTH_CONFIGS
         webSiteMgmtClient resourceGroup siteName siteEnvelope update in
     (forall e, call = Rejected e ->
        run = Rejected (site_error AZURE_WEB_APP AZURE_WEB_APP_AUTH_CONFIGS update (Some e))) /\
     (forall res, call = Fulfilled res ->
        turned_down utils.isHttpCodeOkOrCreated arm_status res ->
        run = Rejected (site_error AZURE_WEB_APP AZURE_WEB_APP_AUTH_CONFIGS update None))) /\
  (forall webSiteMgmtClient resourceGroup siteName,
     let call :=
       webApps_listPublishingCredentials webSiteMgmtClient resourceGroup siteName in
     let run := ListPublishingCredentials webSiteMgmtClient resourceGroup siteName in
     (forall e, call = Rejected e ->
        run = Rejected (ListPublishingCredentialsError (Some e))) /\
     (forall res, call = Fulfilled res ->
        turned_down utils.isHttpCodeOkOrCreated arm_status res ->
        run = Rejected (ListPublishingCredentialsError None))) /\
  (forall zipDeployEndpoint zipBuffer (config : Config) w,
     let call :=
       Axios.post axiosInstance (requests w) zipDeployEndpoint zipBuffer config in
     let run := ZipDeployPackage axiosInstance zipDeployEndpoint zipBuffer config w in
     (forall e, call = Rejected e ->
        fst run = Rejected (ZipDeployError (Some e))) /\
     (forall res, call = Fulfilled res ->
        turned_down utils.isHttpCodeAccepted Axios.status res ->
        fst run = Rejected (ZipDeployError None))) /\
  (forall webSiteMgmtClient resourceGroup siteName,
     let call := webApps_restart webSiteMgmtClient resourceGroup siteName in
     let run := RestartWebApp webSiteMgmtClient resourceGroup siteName in
     (forall e, call = Rejected e ->
        run = Rejected (RestartWebAppError (Some e))) /\
     (forall res, call = Fulfilled res ->
        turned_down utils.isHttpCodeOkOrCreated arm_status res ->
        run = Rejected (RestartWebAppError None))).
Proof.
  repeat apply conj; intros; subst call run.
  - unfold UpdateBotChannelRegistration. split.
    + intros e ->. reflexivity.
    + intros [r|] -> H; [validate H | reflexivity].
  - unfold LinkTeamsChannel. split.
    + intros e ->. reflexivity.
    + intros [r|] -> H; [validate H | reflexivity].
  - unfold CreateOrUpdateAzureWebApp, site_error. split.
    + intros e ->. destruct update as [[|]|]; reflexivity.
    + intros [r|] -> H; [validate H|]; destruct update as [[|]|]; reflexivity.
  - unfold ListPublishingCredentials. split.
    + intros e ->. reflexivity.
    + intros [r|] -> H; [validate H | reflexivity].
  - rewrite ZipDeployPackage_run. split.
    + intros e ->. reflexivity.
    + intros [r|] -> H; [|reflexivity].
      apply turned_down_some in H. cbn. rewrite H. reflexivity.
  - unfold RestartWebApp. split.
    + intros e ->. reflexivity.
    + intros [r|] -> H; [validate H | reflexivity].
Qed.

(** C2, as the code has it.  The package push succeeds, and returns the
    [location] header of the response, when the status of the response is the
    pending status 202 ([isHttpCodeAccepted]); a response with an
    [isHttpCodeOkOrCreated] status makes it raise [ZipDeployError] without
    inner error.  Each of the other five operations succeeds and returns its
    payload when the response has an [isHttpCodeOkOrCreated] status. *)
Theorem accepting_status_returns_payload :
  (forall zipDeployEndpoint zipBuffer (config : Config) w r,
     let run := ZipDeployPackage axiosInstance zipDeployEndpoint zipBuffer config w in
     Axios.post axiosInstance (requests w) zipDeployEndpoint zipBuffer config
       = Fulfilled (Some r) ->
     (utils.isHttpCodeAccepted (Axios.status r) = true ->
        fst run = Fulfilled (Axios.location (Axios.headers r))) /\
     (utils.isHttpCodeOkOrCreated (Axios.status r) = true ->
        fst run = Rejected (ZipDeployError None))) /\
  (forall botClient resourceGroup name msaAppId endpoint displayName r,
     bots_update botClient resourceGroup name
       {| properties :=
            {| displayName := match displayName with Some d => d | None => name end;
               endpoint := endpoint;
               msaAppId := msaAppId |} |} = Fulfilled (Some r) ->
     utils.isHttpCodeOkOrCreated (arm_status r) = true ->
     UpdateBotChannelRegistration botClient resourceGroup name msaAppId endpoint
       displayName = Fulfilled tt) /\
  (forall botClient resourceGroup name r,
     channels_create botClient resourceGroup name "MsTeamsChannel"
       {| location := "global"; kind := "bot";
          channelName := "MsTeamsChannel"; isEnabled := true |} = Fulfilled (Some r) ->
     utils.isHttpCodeOkOrCreated (arm_status r) = true ->
     LinkTeamsChannel MS_TEAMS_CHANNEL botClient resourceGroup name = Fulfilled tt) /\
  (forall webSiteMgmtClient resourceGroup siteName siteEnvelope update r,
     webApps_createOrUpdate webSiteMgmtClient resourceGroup siteName siteEnvelope
       = Fulfilled (Some r) ->
     utils.isHttpCodeOkOrCreated (arm_status r) = true ->
     CreateOrUpdateAzureWebApp AZURE_WEB_APP AZURE_WEB_APP_AUTH_CONFIGS
       webSiteMgmtClient resourceGroup siteName siteEnvelope update = Fulfilled r) /\
  (forall webSiteMgmtClient resourceGroup siteName r,
     webApps_listPublishingCredentials webSiteMgmtClient resourceGroup siteName
       = Fulfilled (Some r) ->
     utils.isHttpCodeOkOrCreated (arm_status r) = true ->
     ListPublishingCredentials webSiteMgmtClient resourceGroup siteName = Fulfilled r) /\
  (forall webSiteMgmtClient resourceGroup siteName r,
     webApps_restart webSiteMgmtClient resourceGroup siteName = Fulfilled (Some r) ->
     utils.isHttpCodeOkOrCreated (arm_status r) = true ->
     RestartWebApp webSiteMgmtClient resourceGroup siteName = Fulfilled tt).
Proof.
  repeat apply conj; intros.
  - subst run. rewrite ZipDeployPackage_run, H. cbn. split; intros K.
    + rewrite K. reflexivity.
    + rewrite (ok_or_created_not_accepted _ K). reflexivity.
  - unfold UpdateBotChannelRegistration. rewrite H. validate H0.
  - unfold LinkTeamsChannel. rewrite H. validate H0.
  - unfold CreateOrUpdateAzureWebApp. rewrite H. validate H0.
  - unfold ListPublishingCredentials. rewrite H. validate H0.
  - unfold RestartWebApp. rewrite H. validate H0.
Qed.

(** C3. When [CreateOrUpdateAzureWebApp] fails, the error is chosen by the
    [update] flag and by nothing in the response: [ProvisionError] for the web
    app when the flag is [false] (or left out), [ConfigUpdatingError] for the
    auth configs when it is [true]; the inner error is the thrown value when the
    call threw, and is absent when the response was turned down. *)
Theorem site_error_follows_update_flag
    webSiteMgmtClient resourceGroup siteName siteEnvelope :
  let call :=
    webApps_createOrUpdate webSiteMgmtClient resourceGroup siteName siteEnvelope in
  let run :=
    CreateOrUpdateAzureWebApp AZURE_WEB_APP AZURE_WEB_APP_AUTH_CONFIGS
      webSiteMgmtClient resourceGroup siteName siteEnvelope in
  (forall e, call = Rejected e ->
     run (Some false) = Rejected (ProvisionError AZURE_WEB_APP (Some e)) /\
     run None = Rejected (ProvisionError AZURE_WEB_APP (Some e)) /\
     run (Some true) = Rejected (ConfigUpdatingError AZURE_WEB_APP_AUTH_CONFIGS (Some e))) /\
  (forall res, call = Fulfilled res ->
     turned_down utils.isHttpCodeOkOrCreated arm_status res ->
     run (Some false) = Rejected (ProvisionError AZURE_WEB_APP None) /\
     run None = Rejected (ProvisionError AZURE_WEB_APP None) /\
     run (Some true) = Rejected (ConfigUpdatingError AZURE_WEB_APP_AUTH_CONFIGS None)).
Proof.
  intros call run. subst call run. unfold CreateOrUpdateAzureWebApp. split.
  - intros e ->. repeat split.
  - intros [r|] -> H; [validate H|]; repeat split.
Qed.

End Wrappers.

(** ** The deploy-status poller *)

Section Poller.

Variables Thrown Config : Type.
Variable RETRY_TIMES : nat.
Variable BACKOFF_TIME_S : Z.
Variable axiosInstance : Axios.Instance Thrown Config.
Variable location : string.
Variable config : Config.

Local Abbreviation answers := (fun n => Axios.get axiosInstance n location config).
Local Abbreviation once := (poll_once BACKOFF_TIME_S axiosInstance location config).
Local Abbreviation loop :=
  (fun n => poll_loop BACKOFF_TIME_S axiosInstance n location config).
Local Abbreviation check :=
  (CheckDeployStatus RETRY_TIMES BACKOFF_TIME_S axiosInstance location config).

Implicit Types (w : World) (e : Thrown) (r : Axios.Response).

Lemma advance_0 w : advance w 0 [] = w.
Proof.
  destruct w as [n l]. unfold advance. cbn.
  rewrite Nat.add_0_r, app_nil_r. reflexivity.
Qed.

Lemma advance_advance w p s p' s' :
  advance (advance w p s) p' s' = advance w (p + p') (s ++ s').
Proof.
  unfold advance. cbn. rewrite Nat.add_assoc, app_assoc. reflexivity.
Qed.

Lemma total_slept_advance w p (n : nat) :
  total_slept (advance w p (repeat BACKOFF_TIME_S n))
  = (total_slept w + Z.of_nat n * BACKOFF_TIME_S)%Z.
Proof.
  unfold total_slept, advance. cbn. rewrite fold_right_app.
  induction n as [|n IH]; cbn [repeat fold_right].
  - lia.
  - assert (G : forall (l : list Z) a b,
               fold_right Z.add (a + b)%Z l = (a + fold_right Z.add b l)%Z).
    { induction l as [|x l IHl]; intros a b; cbn; [reflexivity | rewrite IHl; lia]. }
    rewrite G, IH. lia.
Qed.

(** One pass of the loop body, by the settlement of its [get]. *)
Lemma poll_once_run w :
  once w =
  match answers (requests w) with
  | Rejected e => (Rejected (DeployStatusError (Some e)), advance w 1 [])
  | Fulfilled None => (Fulfilled Normal, advance w 1 [])
  | Fulfilled (Some r) =>
      if utils.isHttpCodeAccepted (Axios.status r)
      then (Fulfilled Normal, advance w 1 [BACKOFF_TIME_S])
      else if utils.isHttpCodeOkOrCreated (Axios.status r)
      then (Fulfilled (Return tt), advance w 1 [])
      else (Rejected (DeployStatusError None), advance w 1 [])
  end.
Proof.
  unfold poll_once, bind, try_catch, axios_get, throw, ret, waitSeconds, advance.
  rewrite app_nil_r, Nat.add_1_r.
  destruct (Axios.get axiosInstance (requests w) location config) as [[r|]|e];
    try reflexivity.
  destruct (utils.isHttpCodeAccepted (Axios.status r)); [reflexivity|].
  destruct (utils.isHttpCodeOkOrCreated (Axios.status r)); reflexivity.
Qed.

Lemma poll_loop_S n w :
  loop (S n) w =
  match once w with
  | (Fulfilled Normal, w') => loop n w'
  | (Fulfilled (Return v), w') => (Fulfilled (Return v), w')
  | (Rejected err, w') => (Rejected err, w')
  end.
Proof.
  cbn [poll_loop]. unfold bind.
  destruct (poll_once BACKOFF_TIME_S axiosInstance location config w)
    as [[[|v]|err] w']; reflexivity.
Qed.

Lemma CheckDeployStatus_run w :
  check w =
  match loop RETRY_TIMES w with
  | (Fulfilled Normal, w') => (Rejected DeployTimeoutError, w')
  | (Fulfilled (Return v), w') => (Fulfilled v, w')
  | (Rejected err, w') => (Rejected err, w')
  end.
Proof.
  unfold CheckDeployStatus, bind.
  destruct (poll_loop BACKOFF_TIME_S axiosInstance RETRY_TIMES location config w)
    as [[[|v]|err] w']; reflexivity.
Qed.

(** As long as the polls are pending the loop goes on, having slept once for
    each accepted poll. *)
Lemma poll_loop_pending k : forall n w,
  (forall j, j < k -> pending_poll (answers (requests w + j)) = true) ->
  loop (k + n) w =
  loop n (advance w k (repeat BACKOFF_TIME_S (accepted_polls answers (requests w) k))).
Proof.
  induction k as [|k IH]; intros n w H.
  - cbn. rewrite advance_0. reflexivity.
  - change (S k + n) with (S (k + n)). rewrite poll_loop_S, poll_once_run.
    pose proof (H 0 (Nat.lt_0_succ k)) as H0. rewrite Nat.add_0_r in H0.
    assert (Hk : forall w1, requests w1 = S (requests w) ->
              forall j, j < k -> pending_poll (answers (requests w1 + j)) = true).
    { intros w1 E j Hj. rewrite E. specialize (H (S j)).
      rewrite Nat.add_succ_r in H. apply H. lia. }
    cbn [accepted_polls]. unfold pending_poll in H0.
    destruct (Axios.get axiosInstance (requests w) location config) as [[r|]|e];
      cbn in H0 |- *.
    + rewrite orb_false_r in H0. rewrite H0.
      rewrite IH by (apply Hk; cbn; lia).
      rewrite advance_advance. cbn [requests advance]. rewrite Nat.add_1_r. reflexivity.
    + rewrite IH by (apply Hk; cbn; lia).
      rewrite advance_advance. cbn [requests advance]. rewrite Nat.add_1_r. reflexivity.
    + discriminate H0.
Qed.

(** The poll that ends the run: it is reached through pending polls only and
    does not fall through. *)
Lemma CheckDeployStatus_stops_at k w :
  k < RETRY_TIMES ->
  (forall j, j < k -> pending_poll (answers (requests w + j)) = true) ->
  fst (once (advance w k (repeat BACKOFF_TIME_S (accepted_polls answers (requests w) k))))
    <> Fulfilled Normal ->
  check w =
  match once (advance w k (repeat BACKOFF_TIME_S (accepted_polls answers (requests w) k))) with
  | (Fulfilled Normal, w') => (Rejected DeployTimeoutError, w')
  | (Fulfilled (Return v), w') => (Fulfilled v, w')
  | (Rejected err, w') => (Rejected err, w')
  end.
Proof.
  intros Hk H Hn. rewrite CheckDeployStatus_run.
  replace RETRY_TIMES with (k + S (RETRY_TIMES - S k)) by lia.
  rewrite poll_loop_pending by exact H. rewrite poll_loop_S.
  destruct (once _) as [[[|v]|err] w']; cbn in Hn |- *; congruence.
Qed.

Lemma CheckDeployStatus_times_out w :
  (forall j, j < RETRY_TIMES -> pending_poll (answers (requests w + j)) = true) ->
  check w =
  (Rejected DeployTimeoutError,
   advance w RETRY_TIMES
     (repeat BACKOFF_TIME_S (accepted_polls answers (requests w) RETRY_TIMES))).
Proof.
  intros H. rewrite CheckDeployStatus_run.
  rewrite <- (Nat.add_0_r RETRY_TIMES) at 1.
  rewrite poll_loop_pending by exact H. reflexivity.
Qed.

(** How a run ends when poll number [k] is reached and throws. *)
Lemma CheckDeployStatus_thrown k e w :
  k < RETRY_TIMES ->
  (forall j, j < k -> pending_poll (answers (requests w + j)) = true) ->
  answers (requests w + k) = Rejected e ->
  check w =
  (Rejected (DeployStatusError (Some e)),
   advance w (S k) (repeat BACKOFF_TIME_S (accepted_polls answers (requests w) k))).
Proof.
  intros Hk H He.
  rewrite (@CheckDeployStatus_stops_at k w Hk H); rewrite poll_once_run;
    cbn [requests advance]; rewrite He; [|cbn; discriminate].
  rewrite advance_advance, app_nil_r, Nat.add_1_r. reflexivity.
Qed.

(** How a run ends when poll number [k] is reached and settles to a response
    whose status is not the pending one. *)
Lemma CheckDeployStatus_settled k r w :
  k < RETRY_TIMES ->
  (forall j, j < k -> pending_poll (answers (requests w + j)) = true) ->
  answers (requests w + k) = Fulfilled (Some r) ->
  utils.isHttpCodeAccepted (Axios.status r) = false ->
  check w =
  (if utils.isHttpCodeOkOrCreated (Axios.status r)
   then Fulfilled tt
   else Rejected (DeployStatusError None),
   advance w (S k) (repeat BACKOFF_TIME_S (accepted_polls answers (requests w) k))).
Proof.
  intros Hk H He Ha.
  rewrite (@CheckDeployStatus_stops_at k w Hk H); rewrite poll_once_run;
    cbn [requests advance]; rewrite He, Ha;
    destruct (utils.isHttpCodeOkOrCreated (Axios.status r));
    try (cbn; discriminate);
    rewrite advance_advance, app_nil_r, Nat.add_1_r; reflexivity.
Qed.

Lemma accepted_polls_none k : forall first,
  (forall j, j < k -> accepted_poll (answers (first + j)) = false) ->
  accepted_polls answers first k = 0.
Proof.
  induction k as [|k IH]; intros first H; [reflexivity|].
  cbn [accepted_polls].
  pose proof (H 0 (Nat.lt_0_succ k)) as H0. rewrite Nat.add_0_r in H0. rewrite H0.
  apply IH. intros j Hj. specialize (H (S j)). rewrite Nat.add_succ_r in H.
  apply H. lia.
Qed.

(** Every run of the loop stays within its budget and ends in one of three ways. *)
Lemma poll_loop_bounds n : forall w,
  exists polls sleeps,
    sleeps <= polls /\ polls <= n /\
    snd (loop n w) = advance w polls (repeat BACKOFF_TIME_S sleeps) /\
    ((fst (loop n w) = Fulfilled Normal /\ polls = n) \/
     fst (loop n w) = Fulfilled (Return tt) \/
     exists cause, fst (loop n w) = Rejected (DeployStatusError cause)).
Proof.
  induction n as [|n IH]; intros w.
  - exists 0, 0. cbn. rewrite advance_0. repeat split; auto.
  - rewrite poll_loop_S, poll_once_run.
    destruct (Axios.get axiosInstance (requests w) location config) as [[r|]|e].
    + destruct (utils.isHttpCodeAccepted (Axios.status r)).
      * destruct (IH (advance w 1 [BACKOFF_TIME_S])) as (p & m & Hm & Hp & Hw & Hr).
        exists (S p), (S m). rewrite Hw, advance_advance.
        repeat split; try lia.
        destruct Hr as [[Hr ->]|[Hr|Hr]]; auto.
      * destruct (utils.isHttpCodeOkOrCreated (Axios.status r)).
        -- exists 1, 0. cbn [fst snd repeat]. repeat split; try lia. auto.
        -- exists 1, 0. cbn [fst snd repeat]. repeat split; try lia. eauto.
    + destruct (IH (advance w 1 [])) as (p & m & Hm & Hp & Hw & Hr).
      exists (S p), m. rewrite Hw, advance_advance.
      repeat split; try lia.
      destruct Hr as [[Hr ->]|[Hr|Hr]]; auto.
    + exists 1, 0. cbn [fst snd repeat]. repeat split; try lia. eauto.
Qed.

(** C4. Whenever a poll within the retry budget is reached and its [get]
    throws, [CheckDeployStatus] raises [DeployStatusError] with the thrown
    value as inner error; that poll is the last request, and the only sleeps
    are those that followed the accepted polls before it.  When it is the first
    poll, nothing was slept.  The run does not end in [DeployTimeoutError]. *)
Theorem transport_error_stops_polling k e w :
  k < RETRY_TIMES ->
  (forall j, j < k ->
     pending_poll (Axios.get axiosInstance (requests w + j) location config) = true) ->
  Axios.get axiosInstance (requests w + k) location config = Rejected e ->
  let run :=
    CheckDeployStatus RETRY_TIMES BACKOFF_TIME_S axiosInstance location config w in
  fst run = Rejected (DeployStatusError (Some e)) /\
  requests (snd run) = requests w + S k /\
  slept (snd run)
    = slept w
      ++ repeat BACKOFF_TIME_S
           (accepted_polls (fun n => Axios.get axiosInstance n location config)
              (requests w) k) /\
  (k = 0 -> slept (snd run) = slept w) /\
  fst run <> Rejected DeployTimeoutError.
Proof.
  intros Hk H He run. subst run.
  rewrite (@CheckDeployStatus_thrown k e w Hk H He). cbn [fst snd advance requests slept].
  repeat split; try discriminate.
  intros ->. cbn. apply app_nil_r.
Qed.

(** C5. With a budget of at least three polls, polls answered 202, 202, 200
    make [CheckDeployStatus] return normally after exactly three requests and
    exactly two sleeps of [BACKOFF_TIME_S] seconds. *)
Theorem pending_pending_ok_succeeds w r0 r1 r2 :
  3 <= RETRY_TIMES ->
  Axios.get axiosInstance (requests w) location config = Fulfilled (Some r0) ->
  Axios.get axiosInstance (requests w + 1) location config = Fulfilled (Some r1) ->
  Axios.get axiosInstance (requests w + 2) location config = Fulfilled (Some r2) ->
  Axios.status r0 = 202%Z -> Axios.status r1 = 202%Z -> Axios.status r2 = 200%Z ->
  CheckDeployStatus RETRY_TIMES BACKOFF_TIME_S axiosInstance location config w =
  (Fulfilled tt,
   {| requests := requests w + 3;
      slept := slept w ++ [BACKOFF_TIME_S; BACKOFF_TIME_S] |}).
Proof.
  intros Hn H0 H1 H2 S0 S1 S2.
  assert (P : forall j, j < 2 -> pending_poll (answers (requests w + j)) = true).
  { intros j Hj. destruct j as [|[|j]]; [| |lia].
    - rewrite Nat.add_0_r, H0. unfold pending_poll. cbn. rewrite S0. reflexivity.
    - rewrite H1. unfold pending_poll. cbn. rewrite S1. reflexivity. }
  rewrite (@CheckDeployStatus_settled 2 r2 w); try assumption; try lia.
  - rewrite S2. cbn [accepted_polls]. rewrite H0.
    replace (S (requests w)) with (requests w + 1) by lia. rewrite H1.
    cbn. rewrite S0, S1. reflexivity.
  - rewrite S2. reflexivity.
Qed.

(** C6. With a budget of exactly three polls, polls answered 202, 202, 202
    make [CheckDeployStatus] raise [DeployTimeoutError] after exactly three
    requests and exactly three sleeps. *)
Theorem three_pending_time_out w r0 r1 r2 :
  RETRY_TIMES = 3 ->
  Axios.get axiosInstance (requests w) location config = Fulfilled (Some r0) ->
  Axios.get axiosInstance (requests w + 1) location config = Fulfilled (Some r1) ->
  Axios.get axiosInstance (requests w + 2) location config = Fulfilled (Some r2) ->
  Axios.status r0 = 202%Z -> Axios.status r1 = 202%Z -> Axios.status r2 = 202%Z ->
  CheckDeployStatus RETRY_TIMES BACKOFF_TIME_S axiosInstance location config w =
  (Rejected DeployTimeoutError,
   {| requests := requests w + 3;
      slept := slept w ++ [BACKOFF_TIME_S; BACKOFF_TIME_S; BACKOFF_TIME_S] |}).
Proof.
  intros Hn H0 H1 H2 S0 S1 S2.
  rewrite CheckDeployStatus_times_out; rewrite Hn.
  - cbn [accepted_polls]. rewrite H0.
    replace (S (requests w)) with (requests w + 1) by lia. rewrite H1.
    replace (S (requests w + 1)) with (requests w + 2) by lia. rewrite H2.
    cbn. rewrite S0, S1, S2. reflexivity.
  - intros j Hj. destruct j as [|[|[|j]]]; [| | |lia].
    + rewrite Nat.add_0_r, H0. unfold pending_poll. cbn. rewrite S0. reflexivity.
    + rewrite H1. unfold pending_poll. cbn. rewrite S1. reflexivity.
    + rewrite H2. unfold pending_poll. cbn. rewrite S2. reflexivity.
Qed.

(** C7. With a budget of at least two polls, polls answered 202, 500 make
    [CheckDeployStatus] raise [DeployStatusError] without inner error at the
    second poll, after exactly two requests and exactly one sleep.  A pass of
    the loop sleeps when its poll is an accepted one, and only then. *)
Theorem pending_then_other_fails_fast w r0 r1 :
  2 <= RETRY_TIMES ->
  Axios.get axiosInstance (requests w) location config = Fulfilled (Some r0) ->
  Axios.get axiosInstance (requests w + 1) location config = Fulfilled (Some r1) ->
  Axios.status r0 = 202%Z -> Axios.status r1 = 500%Z ->
  CheckDeployStatus RETRY_TIMES BACKOFF_TIME_S axiosInstance location config w =
    (Rejected (DeployStatusError None),
     {| requests := requests w + 2; slept := slept w ++ [BACKOFF_TIME_S] |}) /\
  (forall w',
     slept (snd (poll_once BACKOFF_TIME_S axiosInstance location config w')) =
     if accepted_poll (Axios.get axiosInstance (requests w') location config)
     then slept w' ++ [BACKOFF_TIME_S]
     else slept w').
Proof.
  intros Hn H0 H1 S0 S1. split.
  - assert (P : forall j, j < 1 -> pending_poll (answers (requests w + j)) = true).
    { intros j Hj. destruct j as [|j]; [|lia].
      rewrite Nat.add_0_r, H0. unfold pending_poll. cbn. rewrite S0. reflexivity. }
    rewrite (@CheckDeployStatus_settled 1 r1 w); try assumption; try lia.
    + rewrite S1. cbn [accepted_polls]. rewrite H0. cbn. rewrite S0. reflexivity.
    + rewrite S1. reflexivity.
  - intros w'. rewrite poll_once_run. unfold accepted_poll.
    destruct (Axios.get axiosInstance (requests w') location config) as [[r|]|e];
      cbn; try apply app_nil_r.
    destruct (utils.isHttpCodeAccepted (Axios.status r)); [reflexivity|].
    destruct (utils.isHttpCodeOkOrCreated (Axios.status r)); cbn; apply app_nil_r.
Qed.

(** C8. Every run of [CheckDeployStatus] issues at most [RETRY_TIMES] requests
    and sleeps at most as often, each time for [BACKOFF_TIME_S] seconds.  It
    ends by returning, by raising [DeployStatusError], or by raising
    [DeployTimeoutError] after all [RETRY_TIMES] polls were made.  With a delay
    that is not negative, it sleeps at most [RETRY_TIMES * BACKOFF_TIME_S]
    seconds in all. *)
Theorem poller_stays_within_budget w :
  let run :=
    CheckDeployStatus RETRY_TIMES BACKOFF_TIME_S axiosInstance location config w in
  exists polls sleeps : nat,
    sleeps <= polls /\ polls <= RETRY_TIMES /\
    requests (snd run) = requests w + polls /\
    slept (snd run) = slept w ++ repeat BACKOFF_TIME_S sleeps /\
    (fst run = Fulfilled tt \/
     (exists cause, fst run = Rejected (DeployStatusError cause)) \/
     (fst run = Rejected DeployTimeoutError /\ polls = RETRY_TIMES)) /\
    ((0 <= BACKOFF_TIME_S)%Z ->
     (total_slept (snd run) - total_slept w
      <= Z.of_nat RETRY_TIMES * BACKOFF_TIME_S)%Z).
Proof.
  intros run. subst run. rewrite CheckDeployStatus_run.
  destruct (poll_loop_bounds RETRY_TIMES w) as (p & m & Hm & Hp & Hw & Hr).
  exists p, m.
  assert (B : (0 <= BACKOFF_TIME_S)%Z ->
              (total_slept (advance w p (repeat BACKOFF_TIME_S m)) - total_slept w
               <= Z.of_nat RETRY_TIMES * BACKOFF_TIME_S)%Z).
  { intros HB. rewrite total_slept_advance. nia. }
  destruct (poll_loop BACKOFF_TIME_S axiosInstance RETRY_TIMES location config w)
    as [[[|[]]|err] w']; cbn [fst snd] in *; subst w'.
  - do 4 (split; [first [assumption | reflexivity]|]). split; [|exact B].
    right. right. destruct Hr as [[_ Hr]|[Hr|[c Hr]]]; [auto | discriminate Hr | discriminate Hr].
  - do 4 (split; [first [assumption | reflexivity]|]). split; [|exact B].
    left. reflexivity.
  - do 4 (split; [first [assumption | reflexivity]|]). split; [|exact B].
    right. left. destruct Hr as [[Hr _]|[Hr|[c Hr]]]; [discriminate Hr | discriminate Hr | exists c; congruence].
Qed.

(** C10. A poll that settles to no response object neither sleeps nor raises:
    the pass falls through and the loop goes on.  When all [RETRY_TIMES] polls
    settle so, [CheckDeployStatus] raises [DeployTimeoutError] without having
    slept. *)
Theorem undefined_response_degrades_to_timeout w :
  (Axios.get axiosInstance (requests w) location config = Fulfilled None ->
   poll_once BACKOFF_TIME_S axiosInstance location config w
   = (Fulfilled Normal, {| requests := S (requests w); slept := slept w |})) /\
  ((forall j, j < RETRY_TIMES ->
      Axios.get axiosInstance (requests w + j) location config = Fulfilled None) ->
   CheckDeployStatus RETRY_TIMES BACKOFF_TIME_S axiosInstance location config w =
   (Rejected DeployTimeoutError,
    {| requests := requests w + RETRY_TIMES; slept := slept w |})).
Proof.
  split.
  - intros H. rewrite poll_once_run, H. unfold advance.
    rewrite app_nil_r, Nat.add_1_r. reflexivity.
  - intros H. rewrite CheckDeployStatus_times_out.
    + rewrite accepted_polls_none.
      * unfold advance. cbn. rewrite app_nil_r. reflexivity.
      * intros j Hj. rewrite (H j Hj). reflexivity.
    + intros j Hj. rewrite (H j Hj). reflexivity.
Qed.

End Poller.

(** ** Concrete runs *)

Local Open Scope string_scope.

(** A bot client whose calls throw, and a package push answered 200. *)
Lemma failure_raises_designated_error_witness :
  UpdateBotChannelRegistration
    (scripted_bot_client (fun _ _ => Rejected "ECONNRESET"))
    "rg" "bot" "app-id" "https://bot.example/api/messages" None
  = Rejected
      (MessageEndpointUpdatingError "https://bot.example/api/messages"
         (Some "ECONNRESET")) /\
  fst (ZipDeployPackage (scripted_axios (http 200) []) "https://scm/api/zipdeploy"
         [] tt fresh_world)
  = Rejected (ZipDeployError None).
Proof.
  destruct (@failure_raises_designated_error string unit unit string string unit
              "MS Teams Channel" "Azure Web App" "auth configs"
              (scripted_axios (http 200) []))
    as (HU & _ & _ & _ & HZ & _).
  split.
  - apply (proj1 (HU (scripted_bot_client (fun _ _ => Rejected "ECONNRESET"))
                     "rg" "bot" "app-id" "https://bot.example/api/messages" None)).
    reflexivity.
  - apply (proj2 (HZ "https://scm/api/zipdeploy" [] tt fresh_world))
      with (res := Some (response 200)).
    + reflexivity.
    + intros r E. injection E as <-. reflexivity.
Defined.

(** C2, as the claim has it, fails: a package push answered 200, which is an
    [OkOrCreated] status, raises [ZipDeployError] and returns no location. *)
Lemma push_answered_ok_raises :
  Axios.post (scripted_axios (http 200) []) 0 "https://scm/api/zipdeploy" [] tt
    = http 200 /\
  classify 200 = OkOrCreated /\
  fst (ZipDeployPackage (scripted_axios (http 200) []) "https://scm/api/zipdeploy"
         [] tt fresh_world)
    = Rejected (ZipDeployError None) /\
  fst (ZipDeployPackage (scripted_axios (http 200) []) "https://scm/api/zipdeploy"
         [] tt fresh_world)
    <> Fulfilled "https://scm/deployments/latest".
Proof.
  repeat split. intros H. discriminate H.
Qed.

(** A package push answered 202, and a site creation answered 201. *)
Lemma accepting_status_returns_payload_witness :
  fst (ZipDeployPackage (scripted_axios (http 202) []) "https://scm/api/zipdeploy"
         [] tt fresh_world)
  = Fulfilled "https://scm/deployments/latest" /\
  CreateOrUpdateAzureWebApp "Azure Web App" "auth configs"
    (scripted_site_client (fun A a => Fulfilled (arm a 201))) "rg" "site" "envelope"
    (Some false)
  = Fulfilled {| Arm.model := "envelope"; Arm._response := {| Arm.status := 201 |} |}.
Proof.
  destruct (@accepting_status_returns_payload string unit unit string string unit
              "MS Teams Channel" "Azure Web App" "auth configs"
              (scripted_axios (http 202) []))
    as (HZ & _ & _ & HS & _).
  split.
  - apply (proj1 (HZ "https://scm/api/zipdeploy" [] tt fresh_world _ eq_refl)).
    reflexivity.
  - apply HS; reflexivity.
Defined.

(** A site client that answers 500, called to create and called to update. *)
Lemma site_error_follows_update_flag_witness :
  CreateOrUpdateAzureWebApp "Azure Web App" "auth configs"
    (scripted_site_client (fun A a => Fulfilled (arm a 500))) "rg" "site" "envelope"
    (Some false)
  = Rejected (ProvisionError "Azure Web App" None) /\
  CreateOrUpdateAzureWebApp "Azure Web App" "auth configs"
    (scripted_site_client (fun A a => Fulfilled (arm a 500))) "rg" "site" "envelope"
    (Some true)
  = Rejected (ConfigUpdatingError "auth configs" None).
Proof.
  destruct (proj2 (@site_error_follows_update_flag string string string
                     "Azure Web App" "auth configs"
                     (scripted_site_client (fun A a => Fulfilled (arm a 500)))
                     "rg" "site" "envelope")
              (arm "envelope" 500) eq_refl)
    as (HF & _ & HT).
  - intros r E. injection E as <-. reflexivity.
  - split; assumption.
Defined.

(** A poll answered 202, then a poll that throws. *)
Lemma transport_error_stops_polling_witness :
  let run :=
    CheckDeployStatus 10 3 (scripted_axios (http 202) [http 202; Rejected "ETIMEDOUT"])
      "https://scm/deployments/latest" tt fresh_world in
  fst run = Rejected (DeployStatusError (Some "ETIMEDOUT")) /\
  requests (snd run) = 2 /\
  slept (snd run) = [3%Z] /\
  (1 = 0 -> slept (snd run) = []) /\
  fst run <> Rejected DeployTimeoutError.
Proof.
  apply (@transport_error_stops_polling string unit 10 3
           (scripted_axios (http 202) [http 202; Rejected "ETIMEDOUT"])
           "https://scm/deployments/latest" tt 1 "ETIMEDOUT" fresh_world).
  - lia.
  - intros j Hj. destruct j as [|j]; [reflexivity | lia].
  - reflexivity.
Defined.

Lemma pending_pending_ok_succeeds_witness :
  CheckDeployStatus 5 3 (scripted_axios (http 202) [http 202; http 202; http 200])
    "https://scm/deployments/latest" tt fresh_world
  = (Fulfilled tt, {| requests := 3; slept := [3%Z; 3%Z] |}).
Proof.
  apply (@pending_pending_ok_succeeds string unit 5 3
           (scripted_axios (http 202) [http 202; http 202; http 200])
           "https://scm/deployments/latest" tt fresh_world
           (response 202) (response 202) (response 200));
    first [lia | reflexivity].
Defined.

Lemma three_pending_time_out_witness :
  CheckDeployStatus 3 3 (scripted_axios (http 202) [http 202; http 202; http 202])
    "https://scm/deployments/latest" tt fresh_world
  = (Rejected DeployTimeoutError, {| requests := 3; slept := [3%Z; 3%Z; 3%Z] |}).
Proof.
  apply (@three_pending_time_out string unit 3 3
           (scripted_axios (http 202) [http 202; http 202; http 202])
           "https://scm/deployments/latest" tt fresh_world
           (response 202) (response 202) (response 202));
    reflexivity.
Defined.

Lemma pending_then_other_fails_fast_witness :
  CheckDeployStatus 10 3 (scripted_axios (http 202) [http 202; http 500])
    "https://scm/deployments/latest" tt fresh_world
  = (Rejected (DeployStatusError None), {| requests := 2; slept := [3%Z] |}).
Proof.
  apply (@pending_then_other_fails_fast string unit 10 3
           (scripted_axios (http 202) [http 202; http 500])
           "https://scm/deployments/latest" tt fresh_world
           (response 202) (response 500));
    first [lia | reflexivity].
Defined.

Lemma poller_stays_within_budget_witness :
  (total_slept
     (snd (CheckDeployStatus 4 3
             (scripted_axios (http 202) [http 202; Fulfilled None; http 202; http 202])
             "https://scm/deployments/latest" tt fresh_world))
   - total_slept fresh_world <= 4 * 3)%Z.
Proof.
  destruct (@poller_stays_within_budget string unit 4 3
              (scripted_axios (http 202) [http 202; Fulfilled None; http 202; http 202])
              "https://scm/deployments/latest" tt fresh_world)
    as (polls & sleeps & _ & _ & _ & _ & _ & H).
  apply H. lia.
Defined.

(** Three polls that all settle to no response. *)
Lemma undefined_response_degrades_to_timeout_witness :
  CheckDeployStatus 3 3
    (scripted_axios (http 202) [Fulfilled None; Fulfilled None; Fulfilled None])
    "https://scm/deployments/latest" tt fresh_world
  = (Rejected DeployTimeoutError, {| requests := 3; slept := [] |}).
Proof.
  apply (proj2 (@undefined_response_degrades_to_timeout string unit 3 3
                  (scripted_axios (http 202) [Fulfilled None; Fulfilled None; Fulfilled None])
                  "https://scm/deployments/latest" tt fresh_world)).
  intros j Hj. destruct j as [|[|[|j]]]; [reflexivity | reflexivity | reflexivity | lia].
Defined.

(** ** More on the operation wrappers *)

Local Close Scope string_scope.

Section WrapperOutcomes.

Variables Thrown Bot BotChannel Site User Config : Type.
Variables MS_TEAMS_CHANNEL AZURE_WEB_APP AZURE_WEB_APP_AUTH_CONFIGS : string.
Variable axiosInstance : Axios.Instance Thrown Config.

Implicit Types (botClient : AzureBotService Thrown Bot BotChannel)
  (webSiteMgmtClient : WebSiteManagementClient Thrown Site User)
  (e : Thrown) (w : World).

(** The three cases of a validated call, for a response [r]. *)
Ltac by_status r :=
  unfold arm_status;
  destruct (utils.isHttpCodeOkOrCreated (Arm.status (Arm._response r))) eqn:?; cbn.

(** X1. The three operations without payload succeed exactly when the
    collaborator call settles to a response object whose status passes
    [isHttpCodeOkOrCreated]. *)
Theorem void_operations_succeed_iff_validated :
  (forall botClient resourceGroup name msaAppId endpoint displayName,
     UpdateBotChannelRegistration botClient resourceGroup name msaAppId endpoint
       displayName = Fulfilled tt <->
     exists r,
       bots_update botClient resourceGroup name
         {| properties :=
              {| displayName := match displayName with Some d => d | None => name end;
                 endpoint := endpoint;
                 msaAppId := msaAppId |} |} = Fulfilled (Some r) /\
       utils.isHttpCodeOkOrCreated (arm_status r) = true) /\
  (forall botClient resourceGroup name,
     LinkTeamsChannel MS_TEAMS_CHANNEL botClient resourceGroup name = Fulfilled tt <->
     exists r,
       channels_create botClient resourceGroup name "MsTeamsChannel"
         {| location := "global"; kind := "bot";
            channelName := "MsTeamsChannel"; isEnabled := true |} = Fulfilled (Some r) /\
       utils.isHttpCodeOkOrCreated (arm_status r) = true) /\
  (forall webSiteMgmtClient resourceGroup siteName,
     RestartWebApp webSiteMgmtClient resourceGroup siteName = Fulfilled tt <->
     exists r,
       webApps_restart webSiteMgmtClient resourceGroup siteName = Fulfilled (Some r) /\
       utils.isHttpCodeOkOrCreated (arm_status r) = true).
Proof.
  repeat apply conj; intros.
  - unfold UpdateBotChannelRegistration.
    destruct (bots_update _ _ _ _) as [[r|]|e]; cbn.
    + by_status r; split; try discriminate; eauto.
      intros (r' & E & K). injection E as <-. unfold arm_status in K. congruence.
    + split; [discriminate | intros (r' & E & _); discriminate E].
    + split; [discriminate | intros (r' & E & _); discriminate E].
  - unfold LinkTeamsChannel.
    destruct (channels_create _ _ _ _ _) as [[r|]|e]; cbn.
    + by_status r; split; try discriminate; eauto.
      intros (r' & E & K). injection E as <-. unfold arm_status in K. congruence.
    + split; [discriminate | intros (r' & E & _); discriminate E].
    + split; [discriminate | intros (r' & E & _); discriminate E].
  - unfold RestartWebApp.
    destruct (webApps_restart _ _ _) as [[r|]|e]; cbn.
    + by_status r; split; try discriminate; eauto.
      intros (r' & E & K). injection E as <-. unfold arm_status in K. congruence.
    + split; [discriminate | intros (r' & E & _); discriminate E].
    + split; [discriminate | intros (r' & E & _); discriminate E].
Qed.

(** X2. [CreateOrUpdateAzureWebApp] and [ListPublishingCredentials] return a
    value exactly when the collaborator call settles to a response object with
    an [isHttpCodeOkOrCreated] status, and the value returned is that very
    response: for the site it is what the service answered, whatever envelope
    was sent. *)
Theorem payload_is_the_response_received :
  (forall webSiteMgmtClient resourceGroup siteName siteEnvelope update r,
     CreateOrUpdateAzureWebApp AZURE_WEB_APP AZURE_WEB_APP_AUTH_CONFIGS
       webSiteMgmtClient resourceGroup siteName siteEnvelope update = Fulfilled r <->
     webApps_createOrUpdate webSiteMgmtClient resourceGroup siteName siteEnvelope
       = Fulfilled (Some r) /\
     utils.isHttpCodeOkOrCreated (arm_status r) = true) /\
  (forall webSiteMgmtClient resourceGroup siteName r,
     ListPublishingCredentials webSiteMgmtClient resourceGroup siteName = Fulfilled r <->
     webApps_listPublishingCredentials webSiteMgmtClient resourceGroup siteName
       = Fulfilled (Some r) /\
     utils.isHttpCodeOkOrCreated (arm_status r) = true).
Proof.
  split; intros.
  - unfold CreateOrUpdateAzureWebApp.
    destruct (webApps_createOrUpdate _ _ _ _) as [[r'|]|e]; cbn.
    + by_status r'.
      * split; [intros [= <-] | intros [[= <-] _]]; auto.
      * split; [destruct update as [[|]|]; discriminate|].
        intros [[= <-] K]. unfold arm_status in K. congruence.
    + split; [destruct update as [[|]|]; discriminate | intros [E _]; discriminate E].
    + split; [destruct update as [[|]|]; discriminate | intros [E _]; discriminate E].
  - unfold ListPublishingCredentials.
    destruct (webApps_listPublishingCredentials _ _ _) as [[r'|]|e]; cbn.
    + by_status r'.
      * split; [intros [= <-] | intros [[= <-] _]]; auto.
      * split; [discriminate|].
        intros [[= <-] K]. unfold arm_status in K. congruence.
    + split; [discriminate | intros [E _]; discriminate E].
    + split; [discriminate | intros [E _]; discriminate E].
Qed.

(** X3. [ZipDeployPackage] returns a location exactly when its [post] settles
    to a response object whose status passes [isHttpCodeAccepted], and the
    location is the [location] header of that response. *)
Theorem ZipDeployPackage_succeeds_iff_accepted
    zipDeployEndpoint zipBuffer (config : Config) w loc :
  fst (ZipDeployPackage axiosInstance zipDeployEndpoint zipBuffer config w)
    = Fulfilled loc <->
  exists r,
    Axios.post axiosInstance (requests w) zipDeployEndpoint zipBuffer config
      = Fulfilled (Some r) /\
    utils.isHttpCodeAccepted (Axios.status r) = true /\
    loc = Axios.location (Axios.headers r).
Proof.
  rewrite ZipDeployPackage_run. cbn [fst].
  destruct (Axios.post _ _ _ _ _) as [[r|]|e].
  - destruct (utils.isHttpCodeAccepted (Axios.status r)) eqn:A.
    + split.
      * intros [= <-]. eauto.
      * intros (r' & [= <-] & _ & ->). reflexivity.
    + split; [discriminate|].
      intros (r' & [= <-] & K & _). congruence.
  - split; [discriminate | intros (r' & E & _); discriminate E].
  - split; [discriminate | intros (r' & E & _); discriminate E].
Qed.

(** X4. Whatever its [post] settles to, [ZipDeployPackage] issues exactly one
    request on the shared instance and does not sleep: a failed push is not
    tried again. *)
Theorem ZipDeployPackage_issues_one_request
    zipDeployEndpoint zipBuffer (config : Config) w :
  snd (ZipDeployPackage axiosInstance zipDeployEndpoint zipBuffer config w)
  = {| requests := S (requests w); slept := slept w |}.
Proof. rewrite ZipDeployPackage_run. reflexivity. Qed.

(** X5. An operation that fails raises its own error and no other.  The error
    carries an inner error exactly when the collaborator call threw, and the
    inner error is then the thrown value; without inner error, the call had
    settled to an undefined response or to one that the validation turned
    down. *)
Theorem failure_tells_what_happened :
  (forall botClient resourceGroup name msaAppId endpoint displayName err,
     let call :=
       bots_update botClient resourceGroup name
         {| properties :=
              {| displayName := match displayName with Some d => d | None => name end;
                 endpoint := endpoint;
                 msaAppId := msaAppId |} |} in
     UpdateBotChannelRegistration botClient resourceGroup name msaAppId endpoint
       displayName = Rejected err ->
     (exists e, call = Rejected e /\
                err = MessageEndpointUpdatingError endpoint (Some e)) \/
     (exists res, call = Fulfilled res /\
                  turned_down utils.isHttpCodeOkOrCreated arm_status res /\
                  err = MessageEndpointUpdatingError endpoint None)) /\
  (forall botClient resourceGroup name err,
     let call :=
       channels_create botClient resourceGroup name "MsTeamsChannel"
         {| location := "global"; kind := "bot";
            channelName := "MsTeamsChannel"; isEnabled := true |} in
     LinkTeamsChannel MS_TEAMS_CHANNEL botClient resourceGroup name = Rejected err ->
     (exists e, call = Rejected e /\ err = ProvisionError MS_TEAMS_CHANNEL (Some e)) \/
     (exists res, call = Fulfilled res /\
                  turned_down utils.isHttpCodeOkOrCreated arm_status res /\
                  err = ProvisionError MS_TEAMS_CHANNEL None)) /\
  (forall webSiteMgmtClient resourceGroup siteName siteEnvelope update err,
     let call :=
       webApps_createOrUpdate webSiteMgmtClient resourceGroup siteName siteEnvelope in
     CreateOrUpdateAzureWebApp AZURE_WEB_APP AZURE_WEB_APP_AUTH_CONFIGS
       webSiteMgmtClient resourceGroup siteName siteEnvelope update = Rejected err ->
     (exists e, call = Rejected e /\
                err = site_error AZURE_WEB_APP AZURE_WEB_APP_AUTH_CONFIGS update (Some e)) \/
     (exists res, call = Fulfilled res /\
                  turned_down utils.isHttpCodeOkOrCreated arm_status res /\
                  err = site_error AZURE_WEB_APP AZURE_WEB_APP_AUTH_CONFIGS update None)) /\
  (forall webSiteMgmtClient resourceGroup siteName err,
     let call :=
       webApps_listPublishingCredentials webSiteMgmtClient resourceGroup siteName in
     ListPublishingCredentials webSiteMgmtClient resourceGroup siteName = Rejected err ->
     (exists e, call = Rejected e /\ err = ListPublishingCredentialsError (Some e)) \/
     (exists res, call = Fulfilled res /\
                  turned_down utils.isHttpCodeOkOrCreated arm_status res /\
                  err = ListPublishingCredentialsError None)) /\
  (forall zipDeployEndpoint zipBuffer (config : Config) w err,
     let call :=
       Axios.post axiosInstance (requests w) zipDeployEndpoint zipBuffer config in
     fst (ZipDeployPackage axiosInstance zipDeployEndpoint zipBuffer config w)
       = Rejected err ->
     (exists e, call = Rejected e /\ err = ZipDeployError (Some e)) \/
     (exists res, call = Fulfilled res /\
                  turned_down utils.isHttpCodeAccepted Axios.status res /\
                  err = ZipDeployError None)) /\
  (forall webSiteMgmtClient resourceGroup siteName err,
     let call := webApps_restart webSiteMgmtClient resourceGroup siteName in
     RestartWebApp webSiteMgmtClient resourceGroup siteName = Rejected err ->
     (exists e, call = Rejected e /\ err = RestartWebAppError (Some e)) \/
     (exists res, call = Fulfilled res /\
                  turned_down utils.isHttpCodeOkOrCreated arm_status res /\
                  err = RestartWebAppError None)).
Proof.
  assert (T : forall (R : Type) (accepting : Z -> bool) (status_of : R -> Z) (r : R),
            accepting (status_of r) = false ->
            turned_down accepting status_of (Some r)).
  { intros R accepting status_of r K r' [= <-]. exact K. }
  assert (N : forall (R : Type) (accepting : Z -> bool) (status_of : R -> Z),
            turned_down accepting status_of None).
  { intros R accepting status_of r' E. discriminate E. }
  repeat apply conj; intros until err; intros call; subst call.
  - unfold UpdateBotChannelRegistration.
    destruct (bots_update _ _ _ _) as [[r|]|e]; cbn.
    + by_status r; [discriminate|]. intros [= <-]. right. eauto 6.
    + intros [= <-]. right. eauto 6.
    + intros [= <-]. left. eauto.
  - unfold LinkTeamsChannel.
    destruct (channels_create _ _ _ _ _) as [[r|]|e]; cbn.
    + by_status r; [discriminate|]. intros [= <-]. right. eauto 6.
    + intros [= <-]. right. eauto 6.
    + intros [= <-]. left. eauto.
  - unfold CreateOrUpdateAzureWebApp, site_error.
    destruct (webApps_createOrUpdate _ _ _ _) as [[r|]|e]; cbn.
    + by_status r; [discriminate|].
      destruct update as [[|]|]; intros [= <-]; right; eauto 6.
    + destruct update as [[|]|]; intros [= <-]; right; eauto 6.
    + destruct update as [[|]|]; intros [= <-]; left; eauto.
  - unfold ListPublishingCredentials.
    destruct (webApps_listPublishingCredentials _ _ _) as [[r|]|e]; cbn.
    + by_status r; [discriminate|]. intros [= <-]. right. eauto 6.
    + intros [= <-]. right. eauto 6.
    + intros [= <-]. left. eauto.
  - rewrite ZipDeployPackage_run. cbn [fst].
    destruct (Axios.post _ _ _ _ _) as [[r|]|e].
    + destruct (utils.isHttpCodeAccepted (Axios.status r)) eqn:A; [discriminate|].
      intros [= <-]. right. eauto 6.
    + intros [= <-]. right. eauto 6.
    + intros [= <-]. left. eauto.
  - unfold RestartWebApp.
    destruct (webApps_restart _ _ _) as [[r|]|e]; cbn.
    + by_status r; [discriminate|]. intros [= <-]. right. eauto 6.
    + intros [= <-]. right. eauto 6.
    + intros [= <-]. left. eauto.
Qed.

(** X6. Whether [CreateOrUpdateAzureWebApp] succeeds, and what it returns, does
    not depend on the [update] flag: the flag only chooses the error. *)
Theorem update_flag_does_not_affect_success
    webSiteMgmtClient resourceGroup siteName siteEnvelope update update' r :
  CreateOrUpdateAzureWebApp AZURE_WEB_APP AZURE_WEB_APP_AUTH_CONFIGS
    webSiteMgmtClient resourceGroup siteName siteEnvelope update = Fulfilled r ->
  CreateOrUpdateAzureWebApp AZURE_WEB_APP AZURE_WEB_APP_AUTH_CONFIGS
    webSiteMgmtClient resourceGroup siteName siteEnvelope update' = Fulfilled r.
Proof.
  unfold CreateOrUpdateAzureWebApp.
  destruct (webApps_createOrUpdate _ _ _ _) as [[r'|]|e]; cbn.
  - by_status r'; [auto|]. destruct update as [[|]|]; discriminate.
  - destruct update as [[|]|]; discriminate.
  - destruct update as [[|]|]; discriminate.
Qed.

End WrapperOutcomes.

(** ** More on the deploy-status poller *)

Section PollerRuns.

Variables Thrown Config : Type.
Variable BACKOFF_TIME_S : Z.
Variable axiosInstance : Axios.Instance Thrown Config.
Variable location : string.
Variable config : Config.

Local Abbreviation answers := (fun n => Axios.get axiosInstance n location config).
Local Abbreviation loop :=
  (fun n => poll_loop BACKOFF_TIME_S axiosInstance n location config).
Local Abbreviation check :=
  (fun n => CheckDeployStatus n BACKOFF_TIME_S axiosInstance location config).

Implicit Types (w : World) (e : Thrown) (r : Axios.Response).

Lemma accepted_polls_le k : forall first, accepted_polls answers first k <= k.
Proof.
  induction k as [|k IH]; intros first; cbn [accepted_polls]; [lia|].
  specialize (IH (S first)).
  destruct (accepted_poll (Axios.get axiosInstance first location config)); lia.
Qed.

Lemma accepted_polls_all k : forall first,
  (forall j, j < k -> accepted_poll (answers (first + j)) = true) ->
  accepted_polls answers first k = k.
Proof.
  induction k as [|k IH]; intros first H; [reflexivity|].
  cbn [accepted_polls].
  pose proof (H 0 (Nat.lt_0_succ k)) as H0. rewrite Nat.add_0_r in H0. rewrite H0.
  rewrite IH; [reflexivity|].
  intros j Hj. specialize (H (S j)). rewrite Nat.add_succ_r in H. apply H. lia.
Qed.

(** Either all of the next [n] polls are pending, or there is a first one that
    is not. *)
Lemma pending_or_first_settled n : forall first,
  (forall j, j < n -> pending_poll (answers (first + j)) = true) \/
  (exists k, k < n /\
     (forall j, j < k -> pending_poll (answers (first + j)) = true) /\
     pending_poll (answers (first + k)) = false).
Proof.
  induction n as [|n IH]; intros first.
  - left. intros j Hj. lia.
  - destruct (pending_poll (answers first)) eqn:P.
    + destruct (IH (S first)) as [H | (k & Hk & Hb & Hs)].
      * left. intros [|j] Hj.
        -- rewrite Nat.add_0_r. exact P.
        -- rewrite Nat.add_succ_r. apply H. lia.
      * right. exists (S k). rewrite Nat.add_succ_r. repeat split; [lia| |exact Hs].
        intros [|j] Hj.
        -- rewrite Nat.add_0_r. exact P.
        -- rewrite Nat.add_succ_r. apply Hb. lia.
    + right. exists 0. rewrite Nat.add_0_r. repeat split; [lia| |exact P].
      intros j Hj. lia.
Qed.

(** The three ways a run can go: every poll is pending and the run times out;
    or the first poll that is not pending throws; or it settles to a response
    whose status decides the run. *)
Lemma CheckDeployStatus_cases n w :
  ((forall j, j < n -> pending_poll (answers (requests w + j)) = true) /\
   check n w =
   (Rejected DeployTimeoutError,
    advance w n (repeat BACKOFF_TIME_S (accepted_polls answers (requests w) n)))) \/
  (exists k e, k < n /\
     (forall j, j < k -> pending_poll (answers (requests w + j)) = true) /\
     answers (requests w + k) = Rejected e /\
     check n w =
     (Rejected (DeployStatusError (Some e)),
      advance w (S k) (repeat BACKOFF_TIME_S (accepted_polls answers (requests w) k)))) \/
  (exists k r, k < n /\
     (forall j, j < k -> pending_poll (answers (requests w + j)) = true) /\
     answers (requests w + k) = Fulfilled (Some r) /\
     utils.isHttpCodeAccepted (Axios.status r) = false /\
     check n w =
     (if utils.isHttpCodeOkOrCreated (Axios.status r)
      then Fulfilled tt
      else Rejected (DeployStatusError None),
      advance w (S k) (repeat BACKOFF_TIME_S (accepted_polls answers (requests w) k)))).
Proof.
  destruct (pending_or_first_settled n (requests w)) as [H | (k & Hk & Hb & Hs)].
  - left. split; [exact H|]. apply CheckDeployStatus_times_out. exact H.
  - right. unfold pending_poll in Hs.
    destruct (Axios.get axiosInstance (requests w + k) location config)
      as [[r|]|e] eqn:E; cbn in Hs.
    + right. rewrite orb_false_r in Hs. exists k, r.
      repeat split; try assumption.
      apply CheckDeployStatus_settled; assumption.
    + discriminate Hs.
    + left. exists k, e. repeat split; try assumption.
      apply CheckDeployStatus_thrown; assumption.
Qed.

(** X7. [CheckDeployStatus] returns only after a poll that settled to a
    response with an [isHttpCodeOkOrCreated] status; every poll before it was
    pending, and it is the last request of the run. *)
Theorem success_names_an_ok_poll n w w' :
  CheckDeployStatus n BACKOFF_TIME_S axiosInstance location config w
    = (Fulfilled tt, w') ->
  exists k r,
    k < n /\
    (forall j, j < k ->
       pending_poll (Axios.get axiosInstance (requests w + j) location config) = true) /\
    Axios.get axiosInstance (requests w + k) location config = Fulfilled (Some r) /\
    utils.isHttpCodeOkOrCreated (Axios.status r) = true /\
    requests w' = requests w + S k.
Proof.
  intros H.
  destruct (CheckDeployStatus_cases n w)
    as [[_ E] | [(k & e & Hk & Hb & Ha & E) | (k & r & Hk & Hb & Ha & Hn & E)]];
    rewrite E in H.
  - discriminate H.
  - discriminate H.
  - exists k, r.
    destruct (utils.isHttpCodeOkOrCreated (Axios.status r)); [|discriminate H].
    injection H as <-. repeat split; assumption.
Qed.

(** X8. [CheckDeployStatus] raises [DeployTimeoutError] only when each of its
    [n] polls was pending, that is, settled to a 202 response or to no response
    object: no poll threw, and none had another status. *)
Theorem timeout_means_every_poll_was_pending n w :
  fst (CheckDeployStatus n BACKOFF_TIME_S axiosInstance location config w)
    = Rejected DeployTimeoutError ->
  (forall j, j < n ->
     pending_poll (Axios.get axiosInstance (requests w + j) location config) = true) /\
  requests (snd (CheckDeployStatus n BACKOFF_TIME_S axiosInstance location config w))
    = requests w + n.
Proof.
  intros H.
  destruct (CheckDeployStatus_cases n w)
    as [[Hp E] | [(k & e & Hk & Hb & Ha & E) | (k & r & Hk & Hb & Ha & Hn & E)]];
    rewrite E in H |- *; cbn [fst snd] in *.
  - split; [exact Hp | reflexivity].
  - discriminate H.
  - destruct (utils.isHttpCodeOkOrCreated (Axios.status r)); discriminate H.
Qed.

(** X9. When [CheckDeployStatus] raises [DeployStatusError], the last request
    of the run is the poll that caused it, reached through pending polls only:
    with an inner error, that poll threw it; without one, that poll settled to
    a response whose status passes neither [isHttpCodeAccepted] nor
    [isHttpCodeOkOrCreated]. *)
Theorem status_error_names_its_poll n w cause :
  fst (CheckDeployStatus n BACKOFF_TIME_S axiosInstance location config w)
    = Rejected (DeployStatusError cause) ->
  exists k,
    k < n /\
    (forall j, j < k ->
       pending_poll (Axios.get axiosInstance (requests w + j) location config) = true) /\
    requests (snd (CheckDeployStatus n BACKOFF_TIME_S axiosInstance location config w))
      = requests w + S k /\
    match cause with
    | Some e => Axios.get axiosInstance (requests w + k) location config = Rejected e
    | None =>
        exists r,
          Axios.get axiosInstance (requests w + k) location config
            = Fulfilled (Some r) /\
          utils.isHttpCodeAccepted (Axios.status r) = false /\
          utils.isHttpCodeOkOrCreated (Axios.status r) = false
    end.
Proof.
  intros H.
  destruct (CheckDeployStatus_cases n w)
    as [[Hp E] | [(k & e & Hk & Hb & Ha & E) | (k & r & Hk & Hb & Ha & Hn & E)]];
    rewrite E in H |- *; cbn [fst snd] in *.
  - discriminate H.
  - injection H as <-. exists k. repeat split; assumption.
  - destruct (utils.isHttpCodeOkOrCreated (Axios.status r)) eqn:K; [discriminate H|].
    injection H as <-. exists k. repeat split; try assumption.
    exists r. repeat split; assumption.
Qed.

(** X10. For any budget [n], polls that are all accepted (202) end in
    [DeployTimeoutError] after [n] requests and [n] sleeps: the loop sleeps
    after its last poll too, before the error is raised. *)
Theorem all_accepted_sleeps_every_time n w :
  (forall j, j < n ->
     accepted_poll (Axios.get axiosInstance (requests w + j) location config) = true) ->
  CheckDeployStatus n BACKOFF_TIME_S axiosInstance location config w
  = (Rejected DeployTimeoutError,
     {| requests := requests w + n;
        slept := slept w ++ repeat BACKOFF_TIME_S n |}).
Proof.
  intros H. rewrite CheckDeployStatus_times_out.
  - rewrite accepted_polls_all by exact H. reflexivity.
  - intros j Hj. unfold pending_poll. rewrite (H j Hj). reflexivity.
Qed.

(** X11. A run that does not time out sleeps fewer times than it polls: there
    is no sleep after the poll that decides the run. *)
Theorem decided_run_sleeps_less_than_it_polls n w :
  let run := CheckDeployStatus n BACKOFF_TIME_S axiosInstance location config w in
  fst run <> Rejected DeployTimeoutError ->
  exists polls sleeps,
    sleeps < polls /\ polls <= n /\
    requests (snd run) = requests w + polls /\
    slept (snd run) = slept w ++ repeat BACKOFF_TIME_S sleeps.
Proof.
  intros run H. subst run.
  destruct (CheckDeployStatus_cases n w)
    as [[Hp E] | [(k & e & Hk & Hb & Ha & E) | (k & r & Hk & Hb & Ha & Hn & E)]];
    rewrite E in H |- *; cbn [fst snd] in *.
  - contradiction H. reflexivity.
  - exists (S k), (accepted_polls answers (requests w) k).
    pose proof (accepted_polls_le k (requests w)). repeat split; lia.
  - exists (S k), (accepted_polls answers (requests w) k).
    pose proof (accepted_polls_le k (requests w)). repeat split; lia.
Qed.

Lemma poll_loop_split a : forall b w,
  loop (a + b) w =
  match loop a w with
  | (Fulfilled Normal, w') => loop b w'
  | other => other
  end.
Proof.
  induction a as [|a IH]; intros b w; [reflexivity|].
  change (S a + b) with (S (a + b)). rewrite !poll_loop_S.
  destruct (poll_once BACKOFF_TIME_S axiosInstance location config w)
    as [[[|[]]|err] w1]; [apply IH | reflexivity | reflexivity].
Qed.

(** X12. Polling with a budget of [a + b] is polling with a budget of [a]
    and, when that times out, polling again with a budget of [b] from where it
    stopped; a run that [a] polls decide is the run of the larger budget. *)
Theorem polling_budget_splits a b w :
  CheckDeployStatus (a + b) BACKOFF_TIME_S axiosInstance location config w =
  match CheckDeployStatus a BACKOFF_TIME_S axiosInstance location config w with
  | (Rejected DeployTimeoutError, w') =>
      CheckDeployStatus b BACKOFF_TIME_S axiosInstance location config w'
  | other => other
  end.
Proof.
  rewrite (CheckDeployStatus_run (a + b)), (CheckDeployStatus_run a), poll_loop_split.
  destruct (poll_loop_bounds BACKOFF_TIME_S axiosInstance location config a w)
    as (p & m & _ & _ & _ & Hr).
  destruct (poll_loop BACKOFF_TIME_S axiosInstance a location config w)
    as [[[|[]]|err] w1]; cbn [fst] in Hr.
  - rewrite CheckDeployStatus_run. reflexivity.
  - reflexivity.
  - destruct Hr as [[Hr _]|[Hr|[c Hr]]]; try discriminate Hr.
    injection Hr as ->. reflexivity.
Qed.

(** X13. A run that does not time out is not changed by a larger budget. *)
Theorem larger_budget_keeps_decided_run n m w :
  n <= m ->
  fst (CheckDeployStatus n BACKOFF_TIME_S axiosInstance location config w)
    <> Rejected DeployTimeoutError ->
  CheckDeployStatus m BACKOFF_TIME_S axiosInstance location config w
  = CheckDeployStatus n BACKOFF_TIME_S axiosInstance location config w.
Proof.
  intros Hnm H. rewrite (CheckDeployStatus_run n) in H.
  rewrite (CheckDeployStatus_run m), (CheckDeployStatus_run n).
  replace m with (n + (m - n)) by lia. rewrite poll_loop_split.
  destruct (poll_loop BACKOFF_TIME_S axiosInstance n location config w)
    as [[[|[]]|err] w1]; [|reflexivity|reflexivity].
  contradiction H. reflexivity.
Qed.

(** X14. A run depends on the axios instance only through the answers to its
    own polls: with another instance that settles the next [n] requests to
    this location in the same way, the run is the same. *)
Theorem run_depends_on_its_polls_only
    (axiosInstance' : Axios.Instance Thrown Config) n : forall w,
  (forall j, j < n ->
     Axios.get axiosInstance' (requests w + j) location config
     = Axios.get axiosInstance (requests w + j) location config) ->
  CheckDeployStatus n BACKOFF_TIME_S axiosInstance' location config w
  = CheckDeployStatus n BACKOFF_TIME_S axiosInstance location config w.
Proof.
  intros w H. rewrite !CheckDeployStatus_run.
  enough (L : poll_loop BACKOFF_TIME_S axiosInstance' n location config w
              = poll_loop BACKOFF_TIME_S axiosInstance n location config w)
    by (rewrite L; reflexivity).
  revert w H. induction n as [|n IH]; intros w H; [reflexivity|].
  rewrite !poll_loop_S, !poll_once_run.
  pose proof (H 0 (Nat.lt_0_succ n)) as H0. rewrite Nat.add_0_r in H0. rewrite H0.
  assert (Hn : forall w1, requests w1 = S (requests w) ->
            forall j, j < n ->
              Axios.get axiosInstance' (requests w1 + j) location config
              = Axios.get axiosInstance (requests w1 + j) location config).
  { intros w1 E j Hj. rewrite E. specialize (H (S j)).
    rewrite Nat.add_succ_r in H. apply H. lia. }
  destruct (Axios.get axiosInstance (requests w) location config) as [[r|]|e].
  - destruct (utils.isHttpCodeAccepted (Axios.status r)).
    + apply IH, Hn. cbn. lia.
    + destruct (utils.isHttpCodeOkOrCreated (Axios.status r)); reflexivity.
  - apply IH, Hn. cbn. lia.
  - reflexivity.
Qed.

End PollerRuns.

(** ** More concrete runs *)

Local Open Scope string_scope.

(** A restart whose call throws. *)
Lemma failure_tells_what_happened_witness :
  (exists e,
     webApps_restart (scripted_site_client (fun _ _ => Rejected "ECONNRESET"))
       "rg" "site" = Rejected e /\
     RestartWebAppError (Some "ECONNRESET") = RestartWebAppError (Some e)) \/
  (exists res,
     webApps_restart (scripted_site_client (fun _ _ => Rejected "ECONNRESET"))
       "rg" "site" = Fulfilled res /\
     turned_down utils.isHttpCodeOkOrCreated arm_status res /\
     RestartWebAppError (Some "ECONNRESET") = RestartWebAppError None).
Proof.
  destruct (@failure_tells_what_happened string unit unit string string unit
              "MS Teams Channel" "Azure Web App" "auth configs"
              (scripted_axios (http 202) []))
    as (_ & _ & _ & _ & _ & HR).
  apply (HR (scripted_site_client (fun _ _ => Rejected "ECONNRESET")) "rg" "site").
  reflexivity.
Defined.

(** A site creation answered 200 succeeds as an update too. *)
Lemma update_flag_does_not_affect_success_witness :
  CreateOrUpdateAzureWebApp "Azure Web App" "auth configs"
    (scripted_site_client (fun A a => Fulfilled (arm a 200))) "rg" "site" "envelope"
    (Some true)
  = Fulfilled {| Arm.model := "envelope"; Arm._response := {| Arm.status := 200 |} |}.
Proof.
  apply (@update_flag_does_not_affect_success string string string
           "Azure Web App" "auth configs"
           (scripted_site_client (fun A a => Fulfilled (arm a 200)))
           "rg" "site" "envelope" None (Some true)).
  reflexivity.
Defined.

(** A run that returns at its third poll, after an undefined and a pending one. *)
Lemma success_names_an_ok_poll_witness :
  exists k r,
    k < 10 /\
    (forall j, j < k ->
       pending_poll
         (Axios.get (scripted_axios (http 202) [Fulfilled None; http 202; http 201])
            (0 + j) "https://scm/deployments/latest" tt) = true) /\
    Axios.get (scripted_axios (http 202) [Fulfilled None; http 202; http 201])
      (0 + k) "https://scm/deployments/latest" tt = Fulfilled (Some r) /\
    utils.isHttpCodeOkOrCreated (Axios.status r) = true /\
    3 = 0 + S k.
Proof.
  apply (@success_names_an_ok_poll string unit 3
           (scripted_axios (http 202) [Fulfilled None; http 202; http 201])
           "https://scm/deployments/latest" tt 10 fresh_world
           {| requests := 3; slept := [3%Z] |}).
  reflexivity.
Defined.

Lemma timeout_means_every_poll_was_pending_witness :
  (forall j, j < 2 ->
     pending_poll
       (Axios.get (scripted_axios (http 202) [http 202; Fulfilled None])
          (0 + j) "https://scm/deployments/latest" tt) = true) /\
  requests
    (snd (CheckDeployStatus 2 3 (scripted_axios (http 202) [http 202; Fulfilled None])
            "https://scm/deployments/latest" tt fresh_world)) = 0 + 2.
Proof.
  apply (@timeout_means_every_poll_was_pending string unit 3
           (scripted_axios (http 202) [http 202; Fulfilled None])
           "https://scm/deployments/latest" tt 2 fresh_world).
  reflexivity.
Defined.

(** A run that fails at its second poll, answered 404. *)
Lemma status_error_names_its_poll_witness :
  exists k,
    k < 10 /\
    (forall j, j < k ->
       pending_poll
         (Axios.get (scripted_axios (http 202) [http 202; http 404])
            (0 + j) "https://scm/deployments/latest" tt) = true) /\
    2 = 0 + S k /\
    exists r,
      Axios.get (scripted_axios (http 202) [http 202; http 404])
        (0 + k) "https://scm/deployments/latest" tt = Fulfilled (Some r) /\
      utils.isHttpCodeAccepted (Axios.status r) = false /\
      utils.isHttpCodeOkOrCreated (Axios.status r) = false.
Proof.
  apply (@status_error_names_its_poll string unit 3
           (scripted_axios (http 202) [http 202; http 404])
           "https://scm/deployments/latest" tt 10 fresh_world None).
  reflexivity.
Defined.

Lemma all_accepted_sleeps_every_time_witness :
  CheckDeployStatus 2 5 (scripted_axios (http 202) [http 202; http 202; http 200])
    "https://scm/deployments/latest" tt fresh_world
  = (Rejected DeployTimeoutError, {| requests := 2; slept := [5%Z; 5%Z] |}).
Proof.
  apply (@all_accepted_sleeps_every_time string unit 5
           (scripted_axios (http 202) [http 202; http 202; http 200])
           "https://scm/deployments/latest" tt 2 fresh_world).
  intros j Hj. destruct j as [|[|j]]; [reflexivity | reflexivity | lia].
Defined.

Lemma decided_run_sleeps_less_than_it_polls_witness :
  exists polls sleeps,
    sleeps < polls /\ polls <= 10 /\
    2 = 0 + polls /\
    [3%Z] = ([] ++ repeat 3%Z sleeps)%list.
Proof.
  apply (@decided_run_sleeps_less_than_it_polls string unit 3
           (scripted_axios (http 202) [http 202; http 500])
           "https://scm/deployments/latest" tt 10 fresh_world).
  intros H. discriminate H.
Defined.

(** The run decided at the third poll, with budgets of three and of ten polls. *)
Lemma larger_budget_keeps_decided_run_witness :
  CheckDeployStatus 10 3 (scripted_axios (http 202) [http 202; http 202; http 200])
    "https://scm/deployments/latest" tt fresh_world
  = CheckDeployStatus 3 3 (scripted_axios (http 202) [http 202; http 202; http 200])
      "https://scm/deployments/latest" tt fresh_world.
Proof.
  apply (@larger_budget_keeps_decided_run string unit 3
           (scripted_axios (http 202) [http 202; http 202; http 200])
           "https://scm/deployments/latest" tt 3 10 fresh_world).
  - lia.
  - intros H. discriminate H.
Defined.

(** Two instances that differ in their [post] and in their third answer. *)
Lemma run_depends_on_its_polls_only_witness :
  CheckDeployStatus 2 3 (scripted_axios (http 500) [http 202; http 202; http 200])
    "https://scm/deployments/latest" tt fresh_world
  = CheckDeployStatus 2 3 (scripted_axios (http 202) [http 202; http 202; http 404])
      "https://scm/deployments/latest" tt fresh_world.
Proof.
  apply (@run_depends_on_its_polls_only string unit 3
           (scripted_axios (http 202) [http 202; http 202; http 404])
           "https://scm/deployments/latest" tt
           (scripted_axios (http 500) [http 202; http 202; http 200]) 2 fresh_world).
  intros j Hj. destruct j as [|[|j]]; [reflexivity | reflexivity | lia].
Defined.
